(** * Hospital registry router: a shallow embedding of
    [backend/app/routers/hospitals.py] and the properties of its three
    handlers ([create_hospital], [get_hospitals], [get_hospital]).

    Python integers are unbounded, hence [Z].  The module-level list
    [HOSPITALS_DB] is the only mutable state; handlers are written in a
    small state-and-exception monad over it. *)

From Stdlib Require Import ZArith String Ascii DecimalString.
From stdpp Require Import base numbers list strings.

Local Open Scope Z_scope.

(** ** Data model *)

(** Modelled from the spec: the request schema [HospitalCreate] of
    [app/schemas/hospital.py], which is imported by the router but is not
    part of the sources at hand.  The spec gives its fields as
    [{name, location, total_beds, icu_beds}], the caller never supplying
    an [id]. *)
Module HospitalCreate.
Record t : Type := mk
  { name : string;
    location : string;
    total_beds : Z;
    icu_beds : Z }.
End HospitalCreate.

(** A stored row: the dictionaries held by [HOSPITALS_DB], all of which
    carry exactly the keys ["id"], ["name"], ["location"], ["total_beds"]
    and ["icu_beds"]. *)
Module Hospital.
Record t : Type := mk
  { id : Z;
    name : string;
    location : string;
    total_beds : Z;
    icu_beds : Z }.
End Hospital.

(** [fastapi.HTTPException(status_code=..., detail=...)]. *)
Record HTTPException : Type := mkHTTPException
  { status_code : Z;
    detail : string }.

Module status.
Definition HTTP_201_CREATED : Z := 201.
Definition HTTP_400_BAD_REQUEST : Z := 400.
Definition HTTP_404_NOT_FOUND : Z := 404.
End status.

(** The mock database at import time. *)
Definition HOSPITALS_DB : list Hospital.t :=
  [ Hospital.mk 1 "City General Hospital" "Delhi" 250 50;
    Hospital.mk 2 "Metro Care Hospital" "Mumbai" 180 30 ].

(** ** Python primitives used by the handlers *)

Module Py.
(** [len(l)] as a Python integer. *)
Definition len {A} (l : list A) : Z := Z.of_nat (length l).

(** [str(n)] for an integer: decimal digits, a leading [-] when
    negative. *)
Definition str (n : Z) : string := NilZero.string_of_int (Z.to_int n).

(** Normalisation of one bound of a slice with step [1] against a
    sequence of length [n]: a negative bound counts from the end and is
    then floored at [0]; a bound past the end is cut to [n]. *)
Definition adjust_index (n i : Z) : Z :=
  if i <? 0 then
    let i' := i + n in
    if i' <? 0 then 0 else i'
  else if n <=? i then n
  else i.

(** [l[start:stop]]. *)
Definition slice {A} (l : list A) (start stop : Z) : list A :=
  let n := len l in
  let lo := adjust_index n start in
  let hi := adjust_index n stop in
  if lo <? hi then take (Z.to_nat (hi - lo)) (drop (Z.to_nat lo) l)
  else [].

(** [sub in s] on strings. *)
Fixpoint contains (s sub : string) : bool :=
  String.prefix sub s ||
  match s with
  | EmptyString => false
  | String _ s' => contains s' sub
  end.
End Py.

(** ** The handler monad: state [HOSPITALS_DB], exception [HTTPException] *)

Inductive outcome (A : Type) : Type :=
| Returned (a : A)
| Raised (e : HTTPException).
Arguments Returned {A} a.
Arguments Raised {A} e.

Definition Handler (A : Type) : Type :=
  list Hospital.t -> outcome A * list Hospital.t.

#[export] Instance handler_ret : MRet Handler :=
  fun A a db => (Returned a, db).

#[export] Instance handler_bind : MBind Handler :=
  fun A B k m db =>
    match m db with
    | (Returned a, db') => k a db'
    | (Raised e, db') => (Raised e, db')
    end.

(** [raise HTTPException(...)]: the handler stops, the state is kept. *)
Definition raise {A} (e : HTTPException) : Handler A :=
  fun db => (Raised e, db).

(** Reading the global [HOSPITALS_DB]. *)
Definition read_db : Handler (list Hospital.t) :=
  fun db => (Returned db, db).

(** [HOSPITALS_DB.append(h)]. *)
Definition db_append (h : Hospital.t) : Handler unit :=
  fun db => (Returned tt, db ++ [h]).

(** ** Handlers *)

(** [hospital.model_dump()] followed by [new_hospital["id"] = new_id]. *)
Definition model_dump_with_id (hospital : HospitalCreate.t) (new_id : Z)
  : Hospital.t :=
  Hospital.mk new_id
    (HospitalCreate.name hospital)
    (HospitalCreate.location hospital)
    (HospitalCreate.total_beds hospital)
    (HospitalCreate.icu_beds hospital).

(** [POST /hospitals]. *)
Definition create_hospital (hospital : HospitalCreate.t)
  : Handler Hospital.t :=
  if HospitalCreate.icu_beds hospital >? HospitalCreate.total_beds hospital
  then raise (mkHTTPException status.HTTP_400_BAD_REQUEST
                "ICU beds cannot exceed total beds")
  else
    db ← read_db;
    let new_hospital := model_dump_with_id hospital (Py.len db + 1) in
    db_append new_hospital;;
    mret new_hospital.

(** [GET /hospitals]. *)
Definition get_hospitals (skip limit : Z) : Handler (list Hospital.t) :=
  db ← read_db;
  mret (Py.slice db skip (skip + limit)).

(** The [for hospital in HOSPITALS_DB] loop of [get_hospital], with its
    early [return]; [None] when the loop runs to its end. *)
Fixpoint get_hospital_scan (db : list Hospital.t) (hospital_id : Z)
  : option Hospital.t :=
  match db with
  | [] => None
  | hospital :: rest =>
      if Hospital.id hospital =? hospital_id then Some hospital
      else get_hospital_scan rest hospital_id
  end.

(** [GET /hospitals/{hospital_id}]. *)
Definition get_hospital (hospital_id : Z) : Handler Hospital.t :=
  db ← read_db;
  match get_hospital_scan db hospital_id with
  | Some hospital => mret hospital
  | None =>
      raise (mkHTTPException status.HTTP_404_NOT_FOUND
               ("Hospital with ID " +:+ Py.str hospital_id +:+ " not found"))
  end.

(** ** Requests and runs of the service *)

(** One call of the API, by any caller. *)
Inductive request : Type :=
| Create (hospital : HospitalCreate.t)
| List (skip limit : Z)
| GetById (hospital_id : Z).

(** The state left behind by serving one request. *)
Definition serve (db : list Hospital.t) (r : request) : list Hospital.t :=
  match r with
  | Create hospital => (create_hospital hospital db).2
  | List skip limit => (get_hospitals skip limit db).2
  | GetById hospital_id => (get_hospital hospital_id db).2
  end.

(** Serving a sequence of requests, oldest first. *)
Definition serve_all (db : list Hospital.t) (rs : list request)
  : list Hospital.t :=
  foldl serve db rs.

Definition is_create (r : request) : bool :=
  match r with
  | Create _ => true
  | _ => false
  end.

(** A run without any creation request. *)
Definition no_create (rs : list request) : bool :=
  forallb (λ r, negb (is_create r)) rs.

(** Row [i] (counted from [0]) carries id [i + 1]. *)
Definition ids_sequential (db : list Hospital.t) : Prop :=
  ∀ (i : nat) (h : Hospital.t), db !! i = Some h → Hospital.id h = Z.of_nat i + 1.

Definition beds_consistent (h : Hospital.t) : Prop :=
  Hospital.icu_beds h <= Hospital.total_beds h.

(** A creation request that passes the bed check of [create_hospital]. *)
Definition is_accepted (r : request) : bool :=
  match r with
  | Create hospital =>
      negb (HospitalCreate.icu_beds hospital
              >? HospitalCreate.total_beds hospital)
  | _ => false
  end.

(** How many requests of a run are creations that pass the check. *)
Definition accepted_creates (rs : list request) : nat :=
  length (List.filter is_accepted rs).

(** * Properties *)

(** ** Python slices *)

Section slice.
Context {A : Type}.
Implicit Types (l : list A) (lo hi n : Z).

Lemma adjust_index_nonneg n i :
  0 <= n → 0 <= i → Py.adjust_index n i = Z.min i n.
Proof.
  intros Hn Hi. unfold Py.adjust_index.
  destruct (Z.ltb_spec i 0); [lia|].
  destruct (Z.leb_spec n i); lia.
Qed.

Lemma adjust_index_neg n i :
  i < 0 → Py.adjust_index n i = Z.max 0 (i + n).
Proof.
  intros Hi. unfold Py.adjust_index.
  destruct (Z.ltb_spec i 0); [|lia].
  destruct (Z.ltb_spec (i + n) 0); lia.
Qed.

Lemma len_nonneg l : 0 <= Py.len l.
Proof. unfold Py.len. lia. Qed.

(** With both bounds non-negative and in order, a slice is "drop, then
    take". *)
Lemma slice_nonneg l lo hi :
  0 <= lo → lo <= hi →
  Py.slice l lo hi = take (Z.to_nat (hi - lo)) (drop (Z.to_nat lo) l).
Proof.
  intros Hlo Hhi. unfold Py.slice. cbv zeta.
  pose proof (len_nonneg l) as Hn.
  rewrite !adjust_index_nonneg by lia.
  unfold Py.len in *.
  destruct (Z.ltb_spec (Z.min lo (Z.of_nat (length l)))
                       (Z.min hi (Z.of_nat (length l)))) as [Hlt|Hge].
  - assert (lo < Z.of_nat (length l)) as Hin by lia.
    rewrite (Z.min_l lo) by lia.
    destruct (Z.le_gt_cases hi (Z.of_nat (length l))).
    + by rewrite Z.min_l by lia.
    + rewrite Z.min_r by lia.
      rewrite !take_ge; [done| |]; rewrite length_drop; lia.
  - destruct (Z.le_gt_cases (Z.of_nat (length l)) lo).
    + rewrite drop_ge by lia. by rewrite take_nil.
    + assert (hi = lo) as -> by lia.
      by rewrite Z.sub_diag.
Qed.

(** Position [i] of a slice with non-negative bounds is position
    [lo + i] of the list, as long as that stays below [hi]. *)
Lemma slice_nonneg_lookup l lo hi (i : nat) :
  0 <= lo → lo <= hi →
  Py.slice l lo hi !! i =
    if Z.of_nat i <? hi - lo then l !! (Z.to_nat lo + i)%nat else None.
Proof.
  intros Hlo Hhi. rewrite slice_nonneg by done.
  destruct (Z.ltb_spec (Z.of_nat i) (hi - lo)).
  - rewrite lookup_take_lt by lia. apply lookup_drop.
  - apply lookup_take_ge. lia.
Qed.
End slice.

(** ** The Python primitives on small inputs *)

Example str_positive : Py.str 999 = "999".
Proof. reflexivity. Qed.

Example str_negative : Py.str (-5) = "-5".
Proof. reflexivity. Qed.

Example str_zero : Py.str 0 = "0".
Proof. reflexivity. Qed.

Example slice_inside : Py.slice [10; 20; 30; 40; 50] 1 3 = [20; 30].
Proof. reflexivity. Qed.

Example slice_from_end : Py.slice [10; 20; 30; 40; 50] (-2) 10 = [40; 50].
Proof. reflexivity. Qed.

Example slice_far_negative : Py.slice [10; 20; 30; 40; 50] (-10) 2 = [10; 20].
Proof. reflexivity. Qed.

Example slice_crossed : Py.slice [10; 20; 30; 40; 50] 3 1 = [].
Proof. reflexivity. Qed.

Example contains_yes : Py.contains "Hospital with ID 7 not found" "not found" = true.
Proof. reflexivity. Qed.

Example contains_no : Py.contains "Hospital with ID 7 not found" "8" = false.
Proof. reflexivity. Qed.

(** ** What each handler computes *)

Lemma create_hospital_accept hospital db :
  HospitalCreate.icu_beds hospital <= HospitalCreate.total_beds hospital →
  create_hospital hospital db =
    (Returned (model_dump_with_id hospital (Py.len db + 1)),
     db ++ [model_dump_with_id hospital (Py.len db + 1)]).
Proof.
  intros Hle. unfold create_hospital.
  destruct (Z.gtb_spec (HospitalCreate.icu_beds hospital)
                       (HospitalCreate.total_beds hospital)); [lia|done].
Qed.

Lemma create_hospital_reject hospital db :
  HospitalCreate.total_beds hospital < HospitalCreate.icu_beds hospital →
  create_hospital hospital db =
    (Raised (mkHTTPException 400 "ICU beds cannot exceed total beds"), db).
Proof.
  intros Hgt. unfold create_hospital.
  destruct (Z.gtb_spec (HospitalCreate.icu_beds hospital)
                       (HospitalCreate.total_beds hospital)); [done|lia].
Qed.

Lemma get_hospitals_eq skip limit db :
  get_hospitals skip limit db =
    (Returned (Py.slice db skip (skip + limit)), db).
Proof. done. Qed.

Lemma get_hospital_eq hospital_id db :
  get_hospital hospital_id db =
    match get_hospital_scan db hospital_id with
    | Some hospital => (Returned hospital, db)
    | None =>
        (Raised (mkHTTPException 404
           ("Hospital with ID " +:+ Py.str hospital_id +:+ " not found")), db)
    end.
Proof.
  unfold get_hospital, mbind, handler_bind, read_db.
  by destruct (get_hospital_scan db hospital_id).
Qed.

Lemma len_snoc {A} (l : list A) (x : A) : Py.len (l ++ [x]) = Py.len l + 1.
Proof. unfold Py.len. rewrite length_app. simpl. lia. Qed.

(** ** Creation *)

(** C1: for every creation input with [icu_beds <= total_beds],
    [create_hospital] returns a record whose [id] is the length of the
    collection before the call plus one and whose [name], [location],
    [total_beds] and [icu_beds] are the input's; that record is appended
    at the end of the collection, whose length grows by exactly one. *)
Theorem create_hospital_valid hospital db :
  HospitalCreate.icu_beds hospital <= HospitalCreate.total_beds hospital →
  ∃ new_hospital,
    create_hospital hospital db = (Returned new_hospital, db ++ [new_hospital]) ∧
    Hospital.id new_hospital = Py.len db + 1 ∧
    Hospital.name new_hospital = HospitalCreate.name hospital ∧
    Hospital.location new_hospital = HospitalCreate.location hospital ∧
    Hospital.total_beds new_hospital = HospitalCreate.total_beds hospital ∧
    Hospital.icu_beds new_hospital = HospitalCreate.icu_beds hospital ∧
    last (create_hospital hospital db).2 = Some new_hospital ∧
    Py.len (create_hospital hospital db).2 = Py.len db + 1.
Proof.
  intros Hle. eexists.
  rewrite create_hospital_accept by done. cbn [snd].
  split_and!; try reflexivity.
  - apply last_snoc.
  - apply len_snoc.
Qed.

Lemma create_hospital_valid_witness :
  20 <= 100 ∧
  ∃ new_hospital,
    create_hospital (HospitalCreate.mk "Sunrise Clinic" "Pune" 100 20)
      HOSPITALS_DB
    = (Returned new_hospital, HOSPITALS_DB ++ [new_hospital]) ∧
    Hospital.id new_hospital = 3.
Proof.
  split; [lia|].
  destruct (create_hospital_valid
              (HospitalCreate.mk "Sunrise Clinic" "Pune" 100 20) HOSPITALS_DB)
    as (new_hospital & Hrun & Hid & _); [simpl; lia|].
  exists new_hospital. split; [exact Hrun | exact Hid].
Defined.

(** C2: for every creation input with [icu_beds > total_beds],
    [create_hospital] raises the 400 error whose detail is
    "ICU beds cannot exceed total beds", and the collection is the same
    after the call as before: nothing is appended, the length is kept. *)
Theorem create_hospital_invalid hospital db :
  HospitalCreate.icu_beds hospital > HospitalCreate.total_beds hospital →
  create_hospital hospital db =
    (Raised (mkHTTPException status.HTTP_400_BAD_REQUEST
               "ICU beds cannot exceed total beds"), db) ∧
  status.HTTP_400_BAD_REQUEST = 400 ∧
  (create_hospital hospital db).2 = db ∧
  Py.len (create_hospital hospital db).2 = Py.len db.
Proof.
  intros Hgt. rewrite create_hospital_reject by lia. done.
Qed.

Lemma create_hospital_invalid_witness :
  50 > 10 ∧
  create_hospital (HospitalCreate.mk "Bad Hospital" "X" 10 50) HOSPITALS_DB =
    (Raised (mkHTTPException 400 "ICU beds cannot exceed total beds"),
     HOSPITALS_DB).
Proof.
  split; [lia|].
  apply (create_hospital_invalid
           (HospitalCreate.mk "Bad Hospital" "X" 10 50) HOSPITALS_DB).
  simpl. lia.
Defined.

(** ** Listing *)

(** C3: for non-negative [skip] and [limit], [get_hospitals skip limit]
    returns the contiguous slice [skip : skip + limit] of the collection in
    insertion order: position [i] of the result is position [skip + i] of
    the collection for [i < limit], and there is nothing beyond; so at most
    [limit] records.  When [skip] exceeds the length the result is empty and
    nothing is raised.  On the seeded service, [get_hospitals 0 100] returns
    the two seed records (ids 1 and 2) in order and [get_hospitals 5 10]
    returns the empty list. *)
Theorem get_hospitals_slice skip limit db :
  0 <= skip → 0 <= limit →
  ∃ page,
    get_hospitals skip limit db = (Returned page, db) ∧
    page = take (Z.to_nat limit) (drop (Z.to_nat skip) db) ∧
    (∀ i : nat,
       page !! i =
         if Z.of_nat i <? limit then db !! (Z.to_nat skip + i)%nat else None) ∧
    Py.len page <= limit ∧
    (Py.len db < skip → page = []) ∧
    get_hospitals 0 100 HOSPITALS_DB = (Returned HOSPITALS_DB, HOSPITALS_DB) ∧
    Hospital.id <$> HOSPITALS_DB = [1; 2] ∧
    get_hospitals 5 10 HOSPITALS_DB = (Returned [], HOSPITALS_DB).
Proof.
  intros Hskip Hlimit. eexists. split; [apply get_hospitals_eq|].
  assert (Py.slice db skip (skip + limit) =
            take (Z.to_nat limit) (drop (Z.to_nat skip) db)) as Hslice.
  { rewrite slice_nonneg by lia. do 2 f_equal. lia. }
  split_and!; try done.
  - intros i. rewrite slice_nonneg_lookup by lia.
    by replace (skip + limit - skip) with limit by lia.
  - rewrite Hslice. unfold Py.len. rewrite length_take. lia.
  - intros Hpast. rewrite Hslice. unfold Py.len in Hpast.
    rewrite drop_ge by lia. apply take_nil.
Qed.

Lemma get_hospitals_slice_witness :
  0 <= 1 ∧ 0 <= 1 ∧
  ∃ page,
    get_hospitals 1 1 HOSPITALS_DB = (Returned page, HOSPITALS_DB) ∧
    page = [Hospital.mk 2 "Metro Care Hospital" "Mumbai" 180 30].
Proof.
  split; [lia|]. split; [lia|].
  destruct (get_hospitals_slice 1 1 HOSPITALS_DB)
    as (page & Hrun & Hpage & _); [lia|lia|].
  exists page. split; [exact Hrun | exact Hpage].
Defined.

(** ** Substring test *)

Lemma append_empty_l (s : string) : "" +:+ s = s.
Proof. reflexivity. Qed.

Lemma append_String_l (a : ascii) (s t : string) :
  String a s +:+ t = String a (s +:+ t).
Proof. reflexivity. Qed.

Lemma prefix_append (s t : string) : String.prefix s (s +:+ t) = true.
Proof.
  induction s as [|a s IH].
  - rewrite append_empty_l. by destruct t.
  - rewrite append_String_l. simpl. by destruct (ascii_dec a a).
Qed.

Lemma contains_prefix (s sub : string) :
  String.prefix sub s = true → Py.contains s sub = true.
Proof. intros H. destruct s; simpl in *; by rewrite H. Qed.

(** A substring of a suffix is a substring of the whole. *)
Lemma contains_skip (pre s sub : string) :
  Py.contains s sub = true → Py.contains (pre +:+ s) sub = true.
Proof.
  intros Hs. induction pre as [|a pre IH].
  - by rewrite append_empty_l.
  - rewrite append_String_l. cbn [Py.contains]. rewrite IH.
    apply orb_true_r.
Qed.

Lemma contains_append (pre sub post : string) :
  Py.contains (pre +:+ sub +:+ post) sub = true.
Proof. apply contains_skip, contains_prefix, prefix_append. Qed.

(** ** The scan of [get_hospital] *)

(** The scan stops at [hospital] exactly when [hospital] carries the wanted
    id and no row before it does. *)
Lemma get_hospital_scan_Some db hospital_id hospital :
  get_hospital_scan db hospital_id = Some hospital ↔
  ∃ before after,
    db = before ++ hospital :: after ∧
    Hospital.id hospital = hospital_id ∧
    ∀ h, h ∈ before → Hospital.id h ≠ hospital_id.
Proof.
  induction db as [|x db IH]; simpl.
  - split; [done|]. intros ([|??] & ? & [=] & _).
  - destruct (Z.eqb_spec (Hospital.id x) hospital_id) as [Heq|Hne].
    + split.
      * intros [= <-]. exists [], db. split_and!; [done..|].
        intros h Hin. by apply elem_of_nil in Hin.
      * intros ([|y before] & after & Hdb & Hid & Hbefore).
        -- by injection Hdb as -> _.
        -- injection Hdb as <- _.
           destruct (Hbefore x); [left | done].
    + rewrite IH. split.
      * intros (before & after & -> & Hid & Hbefore).
        exists (x :: before), after. split_and!; [done..|].
        intros h [->|Hin]%elem_of_cons; [done | by apply Hbefore].
      * intros ([|y before] & after & Hdb & Hid & Hbefore).
        -- injection Hdb as -> _. done.
        -- injection Hdb as <- ->.
           exists before, after. split_and!; [done..|].
           intros h Hin. apply Hbefore. by right.
Qed.

(** The scan runs to its end exactly when no row carries the wanted id. *)
Lemma get_hospital_scan_None db hospital_id :
  get_hospital_scan db hospital_id = None ↔
  ∀ h, h ∈ db → Hospital.id h ≠ hospital_id.
Proof.
  induction db as [|x db IH]; simpl.
  - split; [|done]. intros _ h Hin. by apply elem_of_nil in Hin.
  - destruct (Z.eqb_spec (Hospital.id x) hospital_id) as [Heq|Hne].
    + split; [done|]. intros Hall. destruct (Hall x); [left | done].
    + rewrite IH. split.
      * intros Hall h [->|Hin]%elem_of_cons; [done | by apply Hall].
      * intros Hall h Hin. apply Hall. by right.
Qed.

Lemma get_hospital_scan_present db hospital_id :
  (∃ h, h ∈ db ∧ Hospital.id h = hospital_id) →
  is_Some (get_hospital_scan db hospital_id).
Proof.
  intros (h & Hin & Hid).
  destruct (get_hospital_scan db hospital_id) eqn:Hscan; [by eexists|].
  rewrite get_hospital_scan_None in Hscan. by destruct (Hscan h).
Qed.

(** In a list without repeated ids, a row is determined by its id. *)
Lemma NoDup_ids_inj (db : list Hospital.t) h1 h2 :
  NoDup (Hospital.id <$> db) →
  h1 ∈ db → h2 ∈ db → Hospital.id h1 = Hospital.id h2 → h1 = h2.
Proof.
  intros Hnodup [i Hi]%list_elem_of_lookup [j Hj]%list_elem_of_lookup Hid.
  assert (i = j) as ->.
  { eapply NoDup_lookup; [exact Hnodup| |].
    - by rewrite list_lookup_fmap, Hi.
    - by rewrite list_lookup_fmap, Hj, Hid. }
  congruence.
Qed.

(** ** Fetching by id *)

(** C4: for every id carried by some record of the collection,
    [get_hospital] returns, without raising and without touching the
    collection, the first record in insertion order whose [id] is the
    requested one; when ids are unique in the collection it is the only
    record with that id. *)
Theorem get_hospital_present db hospital_id :
  (∃ h, h ∈ db ∧ Hospital.id h = hospital_id) →
  ∃ hospital,
    get_hospital hospital_id db = (Returned hospital, db) ∧
    Hospital.id hospital = hospital_id ∧
    (∃ before after,
       db = before ++ hospital :: after ∧
       ∀ h, h ∈ before → Hospital.id h ≠ hospital_id) ∧
    (NoDup (Hospital.id <$> db) →
     ∀ h, h ∈ db → Hospital.id h = hospital_id → h = hospital).
Proof.
  intros Hpresent.
  destruct (get_hospital_scan_present _ _ Hpresent) as [hospital Hscan].
  exists hospital. rewrite get_hospital_eq, Hscan.
  apply get_hospital_scan_Some in Hscan
    as (before & after & Hdb & Hid & Hbefore).
  split_and!; [done..| |].
  - by exists before, after.
  - intros Hnodup h Hin Hh.
    apply (NoDup_ids_inj db); [done..| |congruence].
    rewrite Hdb. apply elem_of_app. right. left.
Qed.

Lemma get_hospital_present_witness :
  (∃ h, h ∈ HOSPITALS_DB ∧ Hospital.id h = 1) ∧
  ∃ hospital,
    get_hospital 1 HOSPITALS_DB = (Returned hospital, HOSPITALS_DB) ∧
    Hospital.id hospital = 1.
Proof.
  assert (∃ h, h ∈ HOSPITALS_DB ∧ Hospital.id h = 1) as Hpresent.
  { exists (Hospital.mk 1 "City General Hospital" "Delhi" 250 50).
    split; [left | reflexivity]. }
  split; [exact Hpresent|].
  destruct (get_hospital_present HOSPITALS_DB 1 Hpresent)
    as (hospital & Hrun & Hid & _).
  exists hospital. split; [exact Hrun | exact Hid].
Defined.

(** C5: for every id carried by no record of the collection,
    [get_hospital] raises the 404 error whose detail is
    "Hospital with ID <id> not found", which contains the decimal text of
    the requested id and the words "not found"; the collection is
    unchanged. *)
Theorem get_hospital_absent db hospital_id :
  (∀ h, h ∈ db → Hospital.id h ≠ hospital_id) →
  ∃ e,
    get_hospital hospital_id db = (Raised e, db) ∧
    status_code e = status.HTTP_404_NOT_FOUND ∧
    status.HTTP_404_NOT_FOUND = 404 ∧
    detail e = "Hospital with ID " +:+ Py.str hospital_id +:+ " not found" ∧
    Py.contains (detail e) (Py.str hospital_id) = true ∧
    Py.contains (detail e) "not found" = true ∧
    (get_hospital hospital_id db).2 = db.
Proof.
  intros Habsent. apply get_hospital_scan_None in Habsent.
  eexists. rewrite get_hospital_eq, Habsent. cbn [status_code detail snd].
  split_and!; try reflexivity.
  - apply contains_append.
  - by do 2 apply contains_skip.
Qed.

Lemma get_hospital_absent_witness :
  (∀ h, h ∈ HOSPITALS_DB → Hospital.id h ≠ 999) ∧
  ∃ e,
    get_hospital 999 HOSPITALS_DB = (Raised e, HOSPITALS_DB) ∧
    status_code e = 404 ∧
    detail e = "Hospital with ID 999 not found".
Proof.
  assert (∀ h, h ∈ HOSPITALS_DB → Hospital.id h ≠ 999) as Habsent.
  { intros h Hin. unfold HOSPITALS_DB in Hin.
    repeat (apply elem_of_cons in Hin as [->|Hin]; [simpl; lia|]).
    by apply elem_of_nil in Hin. }
  split; [exact Habsent|].
  destruct (get_hospital_absent HOSPITALS_DB 999 Habsent)
    as (e & Hrun & Hcode & _ & Hdetail & _).
  exists e. split; [exact Hrun|]. split; [exact Hcode | exact Hdetail].
Defined.

(** ** Runs of the service and what they preserve *)

(** Only an accepted creation changes the collection, and it does so by
    appending the new record. *)
Lemma serve_cases db r :
  serve db r = db ∨
  ∃ hospital,
    r = Create hospital ∧
    HospitalCreate.icu_beds hospital <= HospitalCreate.total_beds hospital ∧
    serve db r = db ++ [model_dump_with_id hospital (Py.len db + 1)].
Proof.
  destruct r as [hospital|skip limit|hospital_id]; simpl.
  - destruct (Z.le_gt_cases (HospitalCreate.icu_beds hospital)
                            (HospitalCreate.total_beds hospital)) as [Hle|Hgt].
    + right. exists hospital. by rewrite create_hospital_accept.
    + left. by rewrite create_hospital_reject.
  - by left.
  - left. rewrite get_hospital_eq.
    by destruct (get_hospital_scan db hospital_id).
Qed.

Lemma serve_all_snoc db rs r :
  serve_all db (rs ++ [r]) = serve (serve_all db rs) r.
Proof. unfold serve_all. by rewrite foldl_app. Qed.

Section invariant.
Variable P : list Hospital.t → Prop.
Hypothesis P_step : ∀ db r, P db → P (serve db r).

(** A property kept by every single request is kept by every run. *)
Lemma serve_all_invariant db rs : P db → P (serve_all db rs).
Proof.
  intros Hdb. induction rs as [|r rs IH] using rev_ind; [done|].
  rewrite serve_all_snoc. by apply P_step.
Qed.
End invariant.

Lemma ids_sequential_seed : ids_sequential HOSPITALS_DB.
Proof.
  intros [|[|i]] h; simpl; intros [= <-]; reflexivity.
Qed.

Lemma ids_sequential_serve db r :
  ids_sequential db → ids_sequential (serve db r).
Proof.
  intros Hdb. destruct (serve_cases db r) as [->|(hospital & _ & _ & ->)];
    [done|].
  intros i h [Hold|[Hi Hnew]]%lookup_app_Some.
  - by apply Hdb.
  - apply list_lookup_singleton_Some in Hnew as [Hz <-].
    simpl. unfold Py.len. lia.
Qed.

Lemma ids_sequential_positive db h :
  ids_sequential db → h ∈ db → 0 < Hospital.id h.
Proof.
  intros Hdb [i Hi]%list_elem_of_lookup. rewrite (Hdb i h Hi). lia.
Qed.

Lemma ids_sequential_increasing db (i j : nat) hi hj :
  ids_sequential db →
  db !! i = Some hi → db !! j = Some hj → (i < j)%nat →
  Hospital.id hi < Hospital.id hj.
Proof.
  intros Hdb Hi Hj Hlt. rewrite (Hdb i hi Hi), (Hdb j hj Hj). lia.
Qed.

Lemma ids_sequential_NoDup db :
  ids_sequential db → NoDup (Hospital.id <$> db).
Proof.
  intros Hdb. apply NoDup_alt. intros i j x.
  rewrite !list_lookup_fmap.
  destruct (db !! i) as [hi|] eqn:Hi; [|done].
  destruct (db !! j) as [hj|] eqn:Hj; [|done].
  simpl. intros [= <-] [= Heq].
  rewrite (Hdb i hi Hi), (Hdb j hj Hj) in Heq. lia.
Qed.

(** C6: after any sequence of requests served from the seeded state,
    every record's [id] is positive, no two records share an [id], ids
    grow strictly along the insertion order (the record at position [i]
    carries [i + 1]), and a creation served next either appends a record
    whose [id] is the current length plus one or changes nothing: the
    request carries no id of its own. *)
Theorem ids_positive_unique_increasing (rs : list request) :
  (∀ h, h ∈ serve_all HOSPITALS_DB rs → 0 < Hospital.id h) ∧
  NoDup (Hospital.id <$> serve_all HOSPITALS_DB rs) ∧
  (∀ (i j : nat) hi hj,
     serve_all HOSPITALS_DB rs !! i = Some hi →
     serve_all HOSPITALS_DB rs !! j = Some hj →
     (i < j)%nat → Hospital.id hi < Hospital.id hj) ∧
  (∀ (i : nat) h,
     serve_all HOSPITALS_DB rs !! i = Some h →
     Hospital.id h = Z.of_nat i + 1) ∧
  (∀ hospital,
     match create_hospital hospital (serve_all HOSPITALS_DB rs) with
     | (Returned new_hospital, db') =>
         Hospital.id new_hospital = Py.len (serve_all HOSPITALS_DB rs) + 1 ∧
         db' = serve_all HOSPITALS_DB rs ++ [new_hospital]
     | (Raised _, db') => db' = serve_all HOSPITALS_DB rs
     end).
Proof.
  assert (ids_sequential (serve_all HOSPITALS_DB rs)) as Hseq.
  { apply serve_all_invariant.
    - apply ids_sequential_serve.
    - apply ids_sequential_seed. }
  split_and!.
  - intros h. by apply ids_sequential_positive.
  - by apply ids_sequential_NoDup.
  - intros i j hi hj. by apply ids_sequential_increasing.
  - exact Hseq.
  - intros hospital.
    destruct (Z.le_gt_cases (HospitalCreate.icu_beds hospital)
                            (HospitalCreate.total_beds hospital)) as [Hle|Hgt].
    + by rewrite create_hospital_accept.
    + by rewrite create_hospital_reject.
Qed.

Lemma ids_positive_unique_increasing_witness :
  NoDup (Hospital.id <$>
           serve_all HOSPITALS_DB
             [Create (HospitalCreate.mk "Sunrise Clinic" "Pune" 100 20);
              List 0 100;
              Create (HospitalCreate.mk "Bad Hospital" "X" 10 50);
              GetById 3;
              Create (HospitalCreate.mk "Lakeside" "Goa" 40 4)]).
Proof.
  apply (ids_positive_unique_increasing
           [Create (HospitalCreate.mk "Sunrise Clinic" "Pune" 100 20);
            List 0 100;
            Create (HospitalCreate.mk "Bad Hospital" "X" 10 50);
            GetById 3;
            Create (HospitalCreate.mk "Lakeside" "Goa" 40 4)]).
Defined.

Lemma beds_consistent_seed : Forall beds_consistent HOSPITALS_DB.
Proof. repeat constructor; unfold beds_consistent; simpl; lia. Qed.

Lemma beds_consistent_serve db r :
  Forall beds_consistent db → Forall beds_consistent (serve db r).
Proof.
  intros Hdb. destruct (serve_cases db r) as [->|(hospital & _ & Hle & ->)];
    [done|].
  apply Forall_app. split; [done|]. by apply Forall_singleton.
Qed.

(** C7: after any sequence of requests served from the seeded state,
    every record of the collection has [icu_beds <= total_beds]: the two
    seed records do, a creation violating it is rejected and leaves the
    collection as it was, and every request keeps the property. *)
Theorem beds_invariant (rs : list request) :
  Forall beds_consistent HOSPITALS_DB ∧
  (∀ db hospital,
     HospitalCreate.icu_beds hospital > HospitalCreate.total_beds hospital →
     serve db (Create hospital) = db) ∧
  (∀ db r, Forall beds_consistent db → Forall beds_consistent (serve db r)) ∧
  (∀ h, h ∈ serve_all HOSPITALS_DB rs →
        Hospital.icu_beds h <= Hospital.total_beds h).
Proof.
  split_and!.
  - apply beds_consistent_seed.
  - intros db hospital Hgt. simpl. by rewrite create_hospital_reject by lia.
  - apply beds_consistent_serve.
  - apply Forall_forall. apply serve_all_invariant.
    + apply beds_consistent_serve.
    + apply beds_consistent_seed.
Qed.

Lemma beds_invariant_witness :
  50 > 10 ∧
  serve HOSPITALS_DB (Create (HospitalCreate.mk "Bad Hospital" "X" 10 50))
    = HOSPITALS_DB.
Proof.
  split; [lia|].
  apply (beds_invariant []). simpl. lia.
Defined.

(** ** Reads *)

Lemma serve_read db r : is_create r = false → serve db r = db.
Proof.
  destruct r as [hospital|skip limit|hospital_id]; simpl; [done|done|].
  intros _. rewrite get_hospital_eq.
  by destruct (get_hospital_scan db hospital_id).
Qed.

Lemma serve_all_reads db rs : no_create rs = true → serve_all db rs = db.
Proof.
  revert db. induction rs as [|r rs IH]; intros db Hrs; [done|].
  simpl in Hrs. apply andb_true_iff in Hrs as [Hr Hrs].
  apply negb_true_iff in Hr.
  unfold serve_all. simpl. rewrite (serve_read _ _ Hr). by apply IH.
Qed.

(** C8: [get_hospitals] and [get_hospital] leave the collection as it
    was, and so does any run of requests without a creation; hence a
    second call of [get_hospitals] with the same [skip] and [limit], or of
    [get_hospital] with the same id, made after such a run, gives the very
    outcome of the first. *)
Theorem reads_leave_db_unchanged skip limit hospital_id db rs :
  no_create rs = true →
  (get_hospitals skip limit db).2 = db ∧
  (get_hospital hospital_id db).2 = db ∧
  serve_all db rs = db ∧
  (get_hospitals skip limit
     (serve_all (get_hospitals skip limit db).2 rs)).1
    = (get_hospitals skip limit db).1 ∧
  (get_hospital hospital_id
     (serve_all (get_hospital hospital_id db).2 rs)).1
    = (get_hospital hospital_id db).1.
Proof.
  intros Hrs.
  assert ((get_hospital hospital_id db).2 = db) as Hget.
  { rewrite get_hospital_eq. by destruct (get_hospital_scan db hospital_id). }
  split_and!; [done|done|by apply serve_all_reads|..].
  - by rewrite serve_all_reads.
  - by rewrite Hget, serve_all_reads.
Qed.

Lemma reads_leave_db_unchanged_witness :
  no_create [GetById 2; List 1 1; GetById 7] = true ∧
  (get_hospital 999
     (serve_all (get_hospital 999 HOSPITALS_DB).2
        [GetById 2; List 1 1; GetById 7])).1
    = (get_hospital 999 HOSPITALS_DB).1.
Proof.
  split; [reflexivity|].
  apply (reads_leave_db_unchanged 0 100 999 HOSPITALS_DB
           [GetById 2; List 1 1; GetById 7]).
  reflexivity.
Defined.

(** ** Negative pagination parameters *)

Section negative_bounds.
Context {A : Type}.
Implicit Types (l : list A) (x : A).

(** [l[-1:stop]] with [stop] past the end is the last element alone. *)
Lemma slice_last l x stop :
  Py.len (l ++ [x]) <= stop → Py.slice (l ++ [x]) (-1) stop = [x].
Proof.
  rewrite len_snoc. intros Hstop. unfold Py.slice. cbv zeta.
  pose proof (len_nonneg l) as Hn.
  rewrite (adjust_index_neg _ (-1)) by lia.
  rewrite (adjust_index_nonneg _ stop) by (rewrite ?len_snoc; lia).
  rewrite len_snoc.
  replace (Z.max 0 (-1 + (Py.len l + 1))) with (Py.len l) by lia.
  rewrite Z.min_r by lia.
  destruct (Z.ltb_spec (Py.len l) (Py.len l + 1)); [|lia].
  replace (Py.len l + 1 - Py.len l) with 1 by lia.
  unfold Py.len. rewrite Nat2Z.id, drop_app_length. done.
Qed.

(** [l[0:-1]] is the list without its last element. *)
Lemma slice_but_last l x : Py.slice (l ++ [x]) 0 (-1) = l.
Proof.
  unfold Py.slice. cbv zeta.
  pose proof (len_nonneg l) as Hn.
  rewrite (adjust_index_neg _ (-1)) by lia.
  rewrite (adjust_index_nonneg _ 0) by (rewrite ?len_snoc; lia).
  rewrite len_snoc.
  replace (Z.max 0 (-1 + (Py.len l + 1))) with (Py.len l) by lia.
  rewrite Z.min_l by lia.
  destruct (Z.ltb_spec 0 (Py.len l)) as [Hpos|Hnil].
  - rewrite Z.sub_0_r. unfold Py.len. rewrite Nat2Z.id.
    simpl. apply take_app_length.
  - destruct l; [done|]. unfold Py.len in Hnil. simpl in Hnil. lia.
Qed.
End negative_bounds.

(** C9, as stated, fails when [limit] equals the length: on the seeded
    collection of two records, [get_hospitals (-1) 2] is the slice
    [-1 : 1], which is empty, not the last record. *)
Lemma get_hospitals_last_needs_limit_above_len :
  get_hospitals (-1) 2 HOSPITALS_DB = (Returned [], HOSPITALS_DB) ∧
  ¬ (∀ db limit,
       1 <= Py.len db → Py.len db <= limit →
       ∃ last_hospital,
         last db = Some last_hospital ∧
         get_hospitals (-1) limit db = (Returned [last_hospital], db)).
Proof.
  split; [reflexivity|].
  intros Hclaim.
  destruct (Hclaim HOSPITALS_DB 2) as (h & _ & Hrun); [done|done|].
  discriminate Hrun.
Qed.

(** C9, amended: negative parameters are passed to the slice as they
    are.  For a collection of length [n >= 1], [get_hospitals (-1) limit]
    with [limit > n] returns exactly the last record, and
    [get_hospitals 0 (-1)] returns all records but the last. *)
Theorem get_hospitals_negative db limit :
  1 <= Py.len db → Py.len db < limit →
  ∃ front last_hospital,
    db = front ++ [last_hospital] ∧
    last db = Some last_hospital ∧
    get_hospitals (-1) limit db = (Returned [last_hospital], db) ∧
    get_hospitals 0 (-1) db = (Returned front, db).
Proof.
  intros Hlen Hlimit.
  destruct (last db) as [x|] eqn:Hlast.
  - apply last_Some in Hlast as [front ->].
    exists front, x. rewrite !get_hospitals_eq.
    split_and!; [done|done| |].
    + by rewrite slice_last by lia.
    + simpl. by rewrite slice_but_last.
  - apply last_None in Hlast as ->. unfold Py.len in Hlen. simpl in Hlen. lia.
Qed.

Lemma get_hospitals_negative_witness :
  1 <= Py.len HOSPITALS_DB ∧ Py.len HOSPITALS_DB < 100 ∧
  ∃ front last_hospital,
    HOSPITALS_DB = front ++ [last_hospital] ∧
    last HOSPITALS_DB = Some last_hospital ∧
    get_hospitals (-1) 100 HOSPITALS_DB
      = (Returned [last_hospital], HOSPITALS_DB) ∧
    get_hospitals 0 (-1) HOSPITALS_DB = (Returned front, HOSPITALS_DB).
Proof.
  split; [done|]. split; [done|].
  apply (get_hospitals_negative HOSPITALS_DB 100); done.
Defined.

(** ** Bed counts below zero *)

(** C10: [create_hospital] checks the order of the two bed counts and
    nothing else: for any integers with [icu_beds <= total_beds] it returns
    and appends a record with those very counts, and when [total_beds] is
    negative the stored record has both counts negative. *)
Theorem create_hospital_no_sign_check hospital db :
  HospitalCreate.icu_beds hospital <= HospitalCreate.total_beds hospital →
  create_hospital hospital db =
    (Returned (model_dump_with_id hospital (Py.len db + 1)),
     db ++ [model_dump_with_id hospital (Py.len db + 1)]) ∧
  model_dump_with_id hospital (Py.len db + 1)
    ∈ (create_hospital hospital db).2 ∧
  Hospital.total_beds (model_dump_with_id hospital (Py.len db + 1))
    = HospitalCreate.total_beds hospital ∧
  Hospital.icu_beds (model_dump_with_id hospital (Py.len db + 1))
    = HospitalCreate.icu_beds hospital ∧
  (HospitalCreate.total_beds hospital < 0 →
   Hospital.total_beds (model_dump_with_id hospital (Py.len db + 1)) < 0 ∧
   Hospital.icu_beds (model_dump_with_id hospital (Py.len db + 1)) < 0).
Proof.
  intros Hle. rewrite create_hospital_accept by done.
  split_and!; [done| |done|done|].
  - apply elem_of_app. right. left.
  - simpl. lia.
Qed.

Lemma create_hospital_no_sign_check_witness :
  -10 <= -5 ∧
  create_hospital (HospitalCreate.mk "Below Zero" "Nowhere" (-5) (-10))
    HOSPITALS_DB
  = (Returned (Hospital.mk 3 "Below Zero" "Nowhere" (-5) (-10)),
     HOSPITALS_DB ++ [Hospital.mk 3 "Below Zero" "Nowhere" (-5) (-10)]).
Proof.
  split; [lia|].
  apply (create_hospital_no_sign_check
           (HospitalCreate.mk "Below Zero" "Nowhere" (-5) (-10)) HOSPITALS_DB).
  simpl. lia.
Defined.

(** * Further properties of the handlers *)

(** ** Listing with arbitrary integers *)

Section slice_any.
Context {A : Type}.
Implicit Types (l : list A).

(** Whatever the bounds, a slice is a run of neighbours of the list. *)
Lemma slice_infix l start stop :
  ∃ before after, l = before ++ Py.slice l start stop ++ after.
Proof.
  unfold Py.slice. cbv zeta.
  set (lo := Py.adjust_index (Py.len l) start).
  set (hi := Py.adjust_index (Py.len l) stop).
  destruct (lo <? hi).
  - exists (take (Z.to_nat lo) l),
           (drop (Z.to_nat (hi - lo)) (drop (Z.to_nat lo) l)).
    by rewrite !take_drop.
  - by exists [], l.
Qed.

(** The two adjusted bounds of [skip : skip + limit] are never further
    apart than [limit]. *)
Lemma adjust_index_window n skip limit :
  0 <= n → 0 <= limit →
  Py.adjust_index n (skip + limit) - Py.adjust_index n skip <= limit.
Proof.
  intros Hn Hlimit. unfold Py.adjust_index.
  repeat match goal with
         | |- context [?a <? ?b] => destruct (Z.ltb_spec a b)
         | |- context [?a <=? ?b] => destruct (Z.leb_spec a b)
         end; lia.
Qed.

Lemma slice_window_length l skip limit :
  0 <= limit → Py.len (Py.slice l skip (skip + limit)) <= limit.
Proof.
  intros Hlimit. unfold Py.slice. cbv zeta.
  pose proof (adjust_index_window (Py.len l) skip limit (len_nonneg l) Hlimit).
  destruct (Z.ltb_spec (Py.adjust_index (Py.len l) skip)
                       (Py.adjust_index (Py.len l) (skip + limit))).
  - unfold Py.len at 1. rewrite length_take. lia.
  - unfold Py.len. simpl. lia.
Qed.
End slice_any.

(** X1: for any integers [skip] and [limit], negative ones included,
    [get_hospitals] returns without raising, leaves the collection as it
    was, and its page is a run of consecutive records of the collection in
    their stored order: no record is repeated, reordered or made up. *)
Theorem get_hospitals_never_raises skip limit db :
  ∃ page before after,
    get_hospitals skip limit db = (Returned page, db) ∧
    db = before ++ page ++ after.
Proof.
  destruct (slice_infix db skip (skip + limit)) as (before & after & Hdb).
  exists (Py.slice db skip (skip + limit)), before, after.
  by rewrite get_hospitals_eq.
Qed.

(** X2: with a non-negative [limit], the page of [get_hospitals] has at
    most [limit] records for every [skip], negative or not. *)
Theorem get_hospitals_at_most_limit skip limit db :
  0 <= limit →
  ∃ page,
    get_hospitals skip limit db = (Returned page, db) ∧
    Py.len page <= limit.
Proof.
  intros Hlimit. eexists. split; [apply get_hospitals_eq|].
  by apply slice_window_length.
Qed.

Lemma get_hospitals_at_most_limit_witness :
  0 <= 1 ∧
  ∃ page,
    get_hospitals (-2) 1 HOSPITALS_DB = (Returned page, HOSPITALS_DB) ∧
    Py.len page <= 1.
Proof.
  split; [lia|]. apply (get_hospitals_at_most_limit (-2) 1 HOSPITALS_DB). lia.
Defined.

(** X3: consecutive pages join up: for non-negative [skip], [a] and [b],
    the page [(skip, a)] followed by the page [(skip + a, b)] is the page
    [(skip, a + b)]; and a page from [0] whose [limit] is at least the
    length is the whole collection. *)
Theorem get_hospitals_pages_join skip a b db :
  0 <= skip → 0 <= a → 0 <= b →
  ∃ page1 page2,
    get_hospitals skip a db = (Returned page1, db) ∧
    get_hospitals (skip + a) b db = (Returned page2, db) ∧
    get_hospitals skip (a + b) db = (Returned (page1 ++ page2), db) ∧
    (skip = 0 → Py.len db <= a → page1 = db).
Proof.
  intros Hskip Ha Hb. do 2 eexists. rewrite !get_hospitals_eq.
  split_and!; [done|done| |].
  - rewrite !slice_nonneg by lia. do 2 f_equal.
    replace (skip + a + b - (skip + a)) with b by lia.
    replace (skip + a - skip) with a by lia.
    replace (skip + (a + b) - skip) with (a + b) by lia.
    replace (Z.to_nat (skip + a)) with (Z.to_nat skip + Z.to_nat a)%nat
      by lia.
    rewrite <- drop_drop, take_take_drop. f_equal. lia.
  - intros -> Hlen. rewrite slice_nonneg by lia. simpl.
    unfold Py.len in Hlen. rewrite drop_0. apply take_ge. lia.
Qed.

Lemma get_hospitals_pages_join_witness :
  0 <= 0 ∧ 0 <= 1 ∧ 0 <= 1 ∧
  ∃ page1 page2,
    get_hospitals 0 1 HOSPITALS_DB = (Returned page1, HOSPITALS_DB) ∧
    get_hospitals (0 + 1) 1 HOSPITALS_DB = (Returned page2, HOSPITALS_DB) ∧
    get_hospitals 0 (1 + 1) HOSPITALS_DB
      = (Returned (page1 ++ page2), HOSPITALS_DB).
Proof.
  split; [lia|]. split; [lia|]. split; [lia|].
  destruct (get_hospitals_pages_join 0 1 1 HOSPITALS_DB)
    as (page1 & page2 & H1 & H2 & H12 & _); [lia..|].
  exists page1, page2. split; [exact H1|]. split; [exact H2 | exact H12].
Defined.

(** ** Listing from the end *)

Section slice_from_end.
Context {A : Type}.
Implicit Types (l : list A).

(** A negative start with a stop at or past the end: the tail that
    begins [-start] places before the end, the whole list when [-start]
    is more than the length. *)
Lemma slice_tail l start stop :
  start < 0 → Py.len l <= stop →
  Py.slice l start stop = drop (Z.to_nat (Py.len l + start)) l.
Proof.
  intros Hstart Hstop. unfold Py.slice. cbv zeta.
  pose proof (len_nonneg l) as Hn.
  rewrite (adjust_index_neg _ start) by lia.
  rewrite (adjust_index_nonneg _ stop) by lia.
  rewrite Z.min_r by lia.
  replace (Z.to_nat (Py.len l + start))
    with (Z.to_nat (Z.max 0 (start + Py.len l))) by lia.
  destruct (Z.ltb_spec (Z.max 0 (start + Py.len l)) (Py.len l)) as [Hlt|Hge].
  - apply take_ge. rewrite length_drop. unfold Py.len in *. lia.
  - symmetry. apply drop_ge. unfold Py.len in *. lia.
Qed.

(** Adjusted bounds that meet or cross give the empty slice. *)
Lemma slice_crossed_empty l start stop :
  Py.adjust_index (Py.len l) stop <= Py.adjust_index (Py.len l) start →
  Py.slice l start stop = [].
Proof.
  intros Hcross. unfold Py.slice. cbv zeta.
  destruct (Z.ltb_spec (Py.adjust_index (Py.len l) start)
                       (Py.adjust_index (Py.len l) stop)); [lia|done].
Qed.
End slice_from_end.

(** X4: a negative [skip] counts from the end.  When [skip < 0] and
    [skip + limit] reaches the length, [get_hospitals] returns the last
    [-skip] records, or the whole collection when there are fewer. *)
Theorem get_hospitals_negative_skip_tail skip limit db :
  skip < 0 → Py.len db <= skip + limit →
  get_hospitals skip limit db =
    (Returned (drop (Z.to_nat (Py.len db + skip)) db), db) ∧
  Py.len (drop (Z.to_nat (Py.len db + skip)) db)
    = Z.min (- skip) (Py.len db).
Proof.
  intros Hskip Hstop. rewrite get_hospitals_eq, slice_tail by done.
  split; [done|]. unfold Py.len. rewrite length_drop. lia.
Qed.

Lemma get_hospitals_negative_skip_tail_witness :
  -2 < 0 ∧ Py.len HOSPITALS_DB <= -2 + 100 ∧
  get_hospitals (-2) 100 HOSPITALS_DB = (Returned HOSPITALS_DB, HOSPITALS_DB).
Proof.
  split; [lia|]. split; [done|].
  apply (get_hospitals_negative_skip_tail (-2) 100 HOSPITALS_DB); done.
Defined.

(** X5: a negative [skip] with a [limit] that does not go beyond the
    length returns nothing: when [skip < 0], [0 <= skip + limit] and
    [limit <= len], the stop bound falls at or before the start bound and
    the page is empty. *)
Theorem get_hospitals_negative_skip_empty skip limit db :
  skip < 0 → 0 <= skip + limit → limit <= Py.len db →
  get_hospitals skip limit db = (Returned [], db).
Proof.
  intros Hskip Hstop Hlimit.
  pose proof (len_nonneg db).
  rewrite get_hospitals_eq, slice_crossed_empty; [done|].
  rewrite (adjust_index_neg _ skip) by done.
  rewrite (adjust_index_nonneg _ (skip + limit)) by lia. lia.
Qed.

Lemma get_hospitals_negative_skip_empty_witness :
  -1 < 0 ∧ 0 <= -1 + 2 ∧ 2 <= Py.len HOSPITALS_DB ∧
  get_hospitals (-1) 2 HOSPITALS_DB = (Returned [], HOSPITALS_DB).
Proof.
  split; [lia|]. split; [lia|]. split; [done|].
  apply (get_hospitals_negative_skip_empty (-1) 2 HOSPITALS_DB); done.
Defined.

(** X6: with a non-negative [skip], a [limit] of zero, or a negative
    [limit] that keeps [skip + limit] non-negative, returns the empty
    page. *)
Theorem get_hospitals_nonpositive_limit_empty skip limit db :
  0 <= skip → limit <= 0 → 0 <= skip + limit →
  get_hospitals skip limit db = (Returned [], db).
Proof.
  intros Hskip Hlimit Hstop.
  pose proof (len_nonneg db).
  rewrite get_hospitals_eq, slice_crossed_empty; [done|].
  rewrite !adjust_index_nonneg by lia. lia.
Qed.

Lemma get_hospitals_nonpositive_limit_empty_witness :
  0 <= 1 ∧ -1 <= 0 ∧ 0 <= 1 + -1 ∧
  get_hospitals 1 (-1) HOSPITALS_DB = (Returned [], HOSPITALS_DB).
Proof.
  split; [lia|]. split; [lia|]. split; [lia|].
  apply (get_hospitals_nonpositive_limit_empty 1 (-1) HOSPITALS_DB); lia.
Defined.

(** ** Runs are append-only *)

Lemma serve_not_accepted db r : is_accepted r = false → serve db r = db.
Proof.
  destruct r as [hospital|skip limit|hospital_id]; simpl.
  - intros Hrej%negb_false_iff. apply Z.gtb_gt in Hrej.
    by rewrite create_hospital_reject by lia.
  - done.
  - intros _. rewrite get_hospital_eq.
    by destruct (get_hospital_scan db hospital_id).
Qed.

Lemma serve_accepted db r :
  is_accepted r = true →
  ∃ hospital,
    r = Create hospital ∧
    HospitalCreate.icu_beds hospital <= HospitalCreate.total_beds hospital ∧
    serve db r = db ++ [model_dump_with_id hospital (Py.len db + 1)].
Proof.
  destruct r as [hospital|skip limit|hospital_id]; simpl; [|done..].
  intros Hacc%negb_true_iff.
  assert (HospitalCreate.icu_beds hospital
            <= HospitalCreate.total_beds hospital) as Hle.
  { destruct (Z.gtb_spec (HospitalCreate.icu_beds hospital)
                         (HospitalCreate.total_beds hospital)); [done|lia]. }
  exists hospital. by rewrite create_hospital_accept.
Qed.

Lemma accepted_creates_snoc rs r :
  accepted_creates (rs ++ [r]) =
    (accepted_creates rs + if is_accepted r then 1 else 0)%nat.
Proof.
  unfold accepted_creates. rewrite List.filter_app, length_app. simpl.
  by destruct (is_accepted r).
Qed.

Lemma serve_all_appends db rs :
  ∃ added,
    serve_all db rs = db ++ added ∧
    length added = accepted_creates rs ∧
    Forall beds_consistent added.
Proof.
  induction rs as [|r rs (added & Hrun & Hlen & Hbeds)] using rev_ind.
  - exists []. by rewrite app_nil_r.
  - rewrite serve_all_snoc, accepted_creates_snoc.
    destruct (is_accepted r) eqn:Hr.
    + destruct (serve_accepted (serve_all db rs) r Hr)
        as (hospital & _ & Hle & ->).
      exists (added ++
                [model_dump_with_id hospital (Py.len (serve_all db rs) + 1)]).
      split_and!.
      * by rewrite Hrun at 1; rewrite <- app_assoc.
      * rewrite length_app. simpl. lia.
      * apply Forall_app. split; [done|]. by apply Forall_singleton.
    + rewrite serve_not_accepted by done.
      exists added. split_and!; [done|lia|done].
Qed.

(** X7: a run of requests only ever appends.  The collection after the
    run is the collection before it followed by one new record per
    creation that passed the bed check, each with
    [icu_beds <= total_beds]; no stored record is removed, moved or
    altered, and rejected creations and reads add nothing. *)
Theorem serve_all_append_only db rs :
  ∃ added,
    serve_all db rs = db ++ added ∧
    Py.len added = Z.of_nat (accepted_creates rs) ∧
    Forall beds_consistent added ∧
    db `prefix_of` serve_all db rs ∧
    (∀ (i : nat) h, db !! i = Some h → serve_all db rs !! i = Some h).
Proof.
  destruct (serve_all_appends db rs) as (added & Hrun & Hlen & Hbeds).
  exists added. split_and!; [done| |done| |].
  - unfold Py.len. by rewrite Hlen.
  - by exists added.
  - intros i h Hi. rewrite Hrun. by apply lookup_app_l_Some.
Qed.

Lemma serve_all_append_only_witness :
  ∃ added,
    serve_all HOSPITALS_DB
      [Create (HospitalCreate.mk "Sunrise Clinic" "Pune" 100 20);
       Create (HospitalCreate.mk "Bad Hospital" "X" 10 50);
       List 0 100]
    = HOSPITALS_DB ++ added ∧
    Py.len added = 1.
Proof.
  destruct (serve_all_append_only HOSPITALS_DB
              [Create (HospitalCreate.mk "Sunrise Clinic" "Pune" 100 20);
               Create (HospitalCreate.mk "Bad Hospital" "X" 10 50);
               List 0 100]) as (added & Hrun & Hlen & _).
  exists added. split; [exact Hrun | exact Hlen].
Defined.

(** X8: ids are handed out in the order of the accepted creations.
    After any run from the seeded state, a creation that passes the bed
    check receives id [3 + k], where [k] is the number of creations
    accepted during the run; rejected creations and reads use up no
    id. *)
Theorem create_hospital_id_counts_accepted rs hospital :
  HospitalCreate.icu_beds hospital <= HospitalCreate.total_beds hospital →
  (create_hospital hospital (serve_all HOSPITALS_DB rs)).1 =
    Returned (model_dump_with_id hospital
                (3 + Z.of_nat (accepted_creates rs))).
Proof.
  intros Hle. rewrite create_hospital_accept by done. simpl.
  destruct (serve_all_appends HOSPITALS_DB rs) as (added & -> & <- & _).
  do 2 f_equal. unfold Py.len. rewrite length_app. simpl. lia.
Qed.

Lemma create_hospital_id_counts_accepted_witness :
  4 <= 40 ∧
  (create_hospital (HospitalCreate.mk "Lakeside" "Goa" 40 4)
     (serve_all HOSPITALS_DB
        [Create (HospitalCreate.mk "Bad Hospital" "X" 10 50);
         Create (HospitalCreate.mk "Sunrise Clinic" "Pune" 100 20);
         GetById 9])).1
  = Returned (Hospital.mk 4 "Lakeside" "Goa" 40 4).
Proof.
  split; [lia|].
  apply (create_hospital_id_counts_accepted
           [Create (HospitalCreate.mk "Bad Hospital" "X" 10 50);
            Create (HospitalCreate.mk "Sunrise Clinic" "Pune" 100 20);
            GetById 9]
           (HospitalCreate.mk "Lakeside" "Goa" 40 4)).
  simpl. lia.
Defined.

(** X9: [create_hospital] does not look for an equal record.  Sending
    the same accepted input twice stores two records that differ only in
    their ids, [len + 1] and [len + 2]. *)
Theorem create_hospital_twice hospital db :
  HospitalCreate.icu_beds hospital <= HospitalCreate.total_beds hospital →
  serve_all db [Create hospital; Create hospital] =
    db ++ [model_dump_with_id hospital (Py.len db + 1);
           model_dump_with_id hospital (Py.len db + 2)].
Proof.
  intros Hle. unfold serve_all. simpl.
  rewrite (create_hospital_accept hospital db) by done. simpl.
  rewrite create_hospital_accept by done. simpl.
  rewrite len_snoc, <- app_assoc. simpl. do 4 f_equal. lia.
Qed.

Lemma create_hospital_twice_witness :
  20 <= 100 ∧
  serve_all HOSPITALS_DB
    [Create (HospitalCreate.mk "Sunrise Clinic" "Pune" 100 20);
     Create (HospitalCreate.mk "Sunrise Clinic" "Pune" 100 20)]
  = HOSPITALS_DB ++
      [Hospital.mk 3 "Sunrise Clinic" "Pune" 100 20;
       Hospital.mk 4 "Sunrise Clinic" "Pune" 100 20].
Proof.
  split; [lia|].
  apply (create_hospital_twice
           (HospitalCreate.mk "Sunrise Clinic" "Pune" 100 20) HOSPITALS_DB).
  simpl. lia.
Defined.

(** ** Fetching what was stored *)

Lemma get_hospital_scan_app_Some db added hospital_id hospital :
  get_hospital_scan db hospital_id = Some hospital →
  get_hospital_scan (db ++ added) hospital_id = Some hospital.
Proof.
  induction db as [|x db IH]; simpl; [done|].
  by destruct (Hospital.id x =? hospital_id).
Qed.

Lemma get_hospital_scan_app_None db added hospital_id :
  get_hospital_scan db hospital_id = None →
  get_hospital_scan (db ++ added) hospital_id
    = get_hospital_scan added hospital_id.
Proof.
  induction db as [|x db IH]; simpl; [done|].
  by destruct (Hospital.id x =? hospital_id).
Qed.

Lemma ids_sequential_bounds db h :
  ids_sequential db → h ∈ db → 1 <= Hospital.id h <= Py.len db.
Proof.
  intros Hdb [i Hi]%list_elem_of_lookup.
  rewrite (Hdb i h Hi). apply lookup_lt_Some in Hi. unfold Py.len. lia.
Qed.

(** With ids laid out as [1, 2, ...], the scan is a lookup by position. *)
Lemma get_hospital_scan_sequential db hospital_id :
  ids_sequential db →
  get_hospital_scan db hospital_id =
    if (1 <=? hospital_id) && (hospital_id <=? Py.len db)
    then db !! Z.to_nat (hospital_id - 1)
    else None.
Proof.
  intros Hdb.
  destruct (Z.leb_spec 1 hospital_id) as [Hlo|Hlo];
    [destruct (Z.leb_spec hospital_id (Py.len db)) as [Hhi|Hhi]|]; simpl.
  - destruct (lookup_lt_is_Some_2 db (Z.to_nat (hospital_id - 1)))
      as [h Hh]; [unfold Py.len in Hhi; lia|].
    rewrite Hh. apply get_hospital_scan_Some.
    exists (take (Z.to_nat (hospital_id - 1)) db),
           (drop (S (Z.to_nat (hospital_id - 1))) db).
    split_and!.
    + symmetry. by apply take_drop_middle.
    + rewrite (Hdb _ _ Hh). lia.
    + intros x [j Hj]%list_elem_of_lookup.
      apply lookup_take_Some in Hj as [Hj Hlt].
      rewrite (Hdb _ _ Hj). lia.
  - apply get_hospital_scan_None. intros h Hin.
    pose proof (ids_sequential_bounds db h Hdb Hin). lia.
  - apply get_hospital_scan_None. intros h Hin.
    pose proof (ids_sequential_bounds db h Hdb Hin). lia.
Qed.

Lemma ids_sequential_run rs : ids_sequential (serve_all HOSPITALS_DB rs).
Proof.
  apply serve_all_invariant.
  - apply ids_sequential_serve.
  - apply ids_sequential_seed.
Qed.

(** X10: after any run from the seeded state, [get_hospital] is a
    lookup by position.  For [1 <= hospital_id <= len] it returns the
    record stored at position [hospital_id - 1]; for every other integer
    (zero, negative, or above the length) it raises the 404 error.  The
    collection is untouched either way. *)
Theorem get_hospital_by_position rs hospital_id :
  get_hospital hospital_id (serve_all HOSPITALS_DB rs) =
    match
      (if (1 <=? hospital_id)
          && (hospital_id <=? Py.len (serve_all HOSPITALS_DB rs))
       then serve_all HOSPITALS_DB rs !! Z.to_nat (hospital_id - 1)
       else None)
    with
    | Some hospital => (Returned hospital, serve_all HOSPITALS_DB rs)
    | None =>
        (Raised (mkHTTPException 404
           ("Hospital with ID " +:+ Py.str hospital_id +:+ " not found")),
         serve_all HOSPITALS_DB rs)
    end.
Proof.
  rewrite get_hospital_eq.
  by rewrite (get_hospital_scan_sequential _ _ (ids_sequential_run rs)).
Qed.

(** X11: what was created can be fetched.  After any run from the
    seeded state, a creation that passes the bed check returns a record
    that [get_hospital], asked for that record's id right after, returns
    again; and [get_hospitals] with [skip] set to the previous length and
    [limit = 1] returns that record alone. *)
Theorem create_then_get rs hospital :
  HospitalCreate.icu_beds hospital <= HospitalCreate.total_beds hospital →
  ∃ new_hospital db',
    create_hospital hospital (serve_all HOSPITALS_DB rs)
      = (Returned new_hospital, db') ∧
    get_hospital (Hospital.id new_hospital) db'
      = (Returned new_hospital, db') ∧
    get_hospitals (Py.len (serve_all HOSPITALS_DB rs)) 1 db'
      = (Returned [new_hospital], db').
Proof.
  intros Hle. do 2 eexists.
  split; [by apply create_hospital_accept|].
  set (db := serve_all HOSPITALS_DB rs).
  set (new_hospital := model_dump_with_id hospital (Py.len db + 1)).
  split.
  - rewrite get_hospital_eq.
    assert (get_hospital_scan db (Hospital.id new_hospital) = None) as Hold.
    { apply get_hospital_scan_None. intros h Hin.
      pose proof (ids_sequential_bounds db h (ids_sequential_run rs) Hin).
      simpl. lia. }
    rewrite (get_hospital_scan_app_None _ _ _ Hold). simpl.
    by rewrite Z.eqb_refl.
  - rewrite get_hospitals_eq, slice_nonneg by (pose proof (len_nonneg db); lia).
    replace (Py.len db + 1 - Py.len db) with 1 by lia.
    unfold Py.len. by rewrite Nat2Z.id, drop_app_length.
Qed.

Lemma create_then_get_witness :
  20 <= 100 ∧
  ∃ new_hospital db',
    create_hospital (HospitalCreate.mk "Sunrise Clinic" "Pune" 100 20)
      (serve_all HOSPITALS_DB [GetById 1])
      = (Returned new_hospital, db') ∧
    get_hospital (Hospital.id new_hospital) db'
      = (Returned new_hospital, db').
Proof.
  split; [lia|].
  destruct (create_then_get [GetById 1]
              (HospitalCreate.mk "Sunrise Clinic" "Pune" 100 20))
    as (new_hospital & db' & Hcreate & Hget & _); [simpl; lia|].
  exists new_hospital, db'. split; [exact Hcreate | exact Hget].
Defined.

(** X12: a record that can be fetched stays fetchable.  If
    [get_hospital] returns a record for some id, it returns that same
    record for that id after any further run of requests, on any
    collection. *)
Theorem get_hospital_stable db rs hospital_id hospital :
  get_hospital hospital_id db = (Returned hospital, db) →
  get_hospital hospital_id (serve_all db rs)
    = (Returned hospital, serve_all db rs).
Proof.
  rewrite !get_hospital_eq. intros Hget.
  destruct (get_hospital_scan db hospital_id) as [h|] eqn:Hscan; [|done].
  injection Hget as ->.
  destruct (serve_all_appends db rs) as (added & -> & _).
  by rewrite (get_hospital_scan_app_Some _ added _ _ Hscan).
Qed.

Lemma get_hospital_stable_witness :
  get_hospital 1 HOSPITALS_DB
    = (Returned (Hospital.mk 1 "City General Hospital" "Delhi" 250 50),
       HOSPITALS_DB) ∧
  get_hospital 1
    (serve_all HOSPITALS_DB
       [Create (HospitalCreate.mk "Sunrise Clinic" "Pune" 100 20);
        List (-1) 5])
  = (Returned (Hospital.mk 1 "City General Hospital" "Delhi" 250 50),
     serve_all HOSPITALS_DB
       [Create (HospitalCreate.mk "Sunrise Clinic" "Pune" 100 20);
        List (-1) 5]).
Proof.
  split; [reflexivity|].
  apply (get_hospital_stable HOSPITALS_DB
           [Create (HospitalCreate.mk "Sunrise Clinic" "Pune" 100 20);
            List (-1) 5]
           1 (Hospital.mk 1 "City General Hospital" "Delhi" 250 50)).
  reflexivity.
Defined.

(** ** A window counted from the end *)

(** X13: when both [skip] and [skip + limit] are negative, both bounds
    count from the end: for [-len <= skip < 0], [0 <= limit] and
    [skip + limit < 0], [get_hospitals] returns the [limit] records that
    start [-skip] places before the end. *)
Theorem get_hospitals_window_from_end skip limit db :
  - Py.len db <= skip → 0 <= limit → skip + limit < 0 →
  get_hospitals skip limit db =
    (Returned (take (Z.to_nat limit) (drop (Z.to_nat (Py.len db + skip)) db)),
     db) ∧
  Py.len (take (Z.to_nat limit) (drop (Z.to_nat (Py.len db + skip)) db))
    = limit.
Proof.
  intros Hskip Hlimit Hstop. rewrite get_hospitals_eq. split.
  - f_equal. unfold Py.slice. cbv zeta.
    rewrite !adjust_index_neg by lia.
    rewrite !Z.max_r by lia.
    destruct (Z.ltb_spec (skip + Py.len db) (skip + limit + Py.len db)).
    + replace (skip + limit + Py.len db - (skip + Py.len db)) with limit
        by lia.
      by replace (skip + Py.len db) with (Py.len db + skip) by lia.
    + by assert (limit = 0) as -> by lia.
  - unfold Py.len in *. rewrite length_take, length_drop. lia.
Qed.

Lemma get_hospitals_window_from_end_witness :
  - Py.len HOSPITALS_DB <= -2 ∧ 0 <= 1 ∧ -2 + 1 < 0 ∧
  get_hospitals (-2) 1 HOSPITALS_DB
    = (Returned [Hospital.mk 1 "City General Hospital" "Delhi" 250 50],
       HOSPITALS_DB).
Proof.
  split; [done|]. split; [lia|]. split; [lia|].
  apply (get_hospitals_window_from_end (-2) 1 HOSPITALS_DB); done.
Defined.
